(** * Buffer and overlay pipeline of [streamlit_buffer_overlay_app.py]

    A shallow embedding of the helper functions of the application
    ([read_vector_upload], [ensure_utm], [make_buffer],
    [count_intersecting_parcels]) and the properties of the analysis
    pipeline that its specification states.

    Python values are modelled as the interpreter has them: [float] is the
    kernel's binary64 type, [int] is [Z], [str] is [string], an exception is
    a value of [exn] carried by [result].  The geometry library (geopandas,
    shapely, pyproj) is outside the repository: it is the record
    [GeoEngine], over which every definition is parametric. *)

Set Warnings "-notation-overridden,-ambiguous-paths,-inexact-float".
Set Warnings "-redundant-canonical-projection,-rewrite-rw".
From HB Require Import structures.
From mathcomp Require Import boot.
From Stdlib Require Import ZArith Floats String Ascii.
From Stdlib Require Import Lia.

Set Implicit Arguments.
Unset Strict Implicit.
Unset Printing Implicit Defensive.

(** ** Python base values *)

Module Py.

(** Exceptions that the modelled code raises or sees. [LibError] stands for
    an exception raised inside an external library, with its message. *)
Inductive exn : Type :=
| ValueError
| OverflowError
| LibError (what : string).

Inductive result (T : Type) : Type :=
| Ok (x : T)
| Raise (e : exn).

Arguments Ok {T} x.
Arguments Raise {T} e.

Definition bind {T U : Type} (c : result T) (k : T -> result U) : result U :=
  match c with
  | Ok x => k x
  | Raise e => Raise e
  end.

(** [int(x)] on a float: truncation toward zero; [ValueError] on a NaN,
    [OverflowError] on an infinity. *)
Definition int_of_float (x : float) : result Z :=
  match Prim2SF x with
  | S754_zero _ => Ok 0%Z
  | S754_finite s m e =>
      let a := Z.shiftl (Zpos m) e in
      Ok (if s then Z.opp a else a)
  | S754_infinity _ => Raise OverflowError
  | S754_nan => Raise ValueError
  end.

(** [x >= 0] on a float. *)
Definition float_ge0 (x : float) : bool := PrimFloat.leb 0%float x.

(** [str.lower()], on the ASCII letters. *)
Definition lower_ascii (c : ascii) : ascii :=
  let n := nat_of_ascii c in
  if (65 <= n) && (n <= 90) then ascii_of_nat (n + 32) else c.

Fixpoint lower (s : string) : string :=
  match s with
  | EmptyString => EmptyString
  | String c s' => String (lower_ascii c) (lower s')
  end.

(** [s.endswith(suffix)]. *)
Definition endswith (s suffix : string) : bool :=
  let n := String.length s in
  let k := String.length suffix in
  (k <= n) && String.eqb (String.substring (n - k) k s) suffix.

End Py.

Import Py.

Declare Scope py_scope.
Delimit Scope py_scope with py.
Notation "x <-- c ;; k" := (bind c (fun x => k))
  (at level 61, c at next level, right associativity) : py_scope.
Local Open Scope py_scope.

(** Decidable equality on the base types, for [seq] membership and [subseq]. *)
HB.instance Definition _ := hasDecEq.Build Z Z.eqb_spec.
HB.instance Definition _ := hasDecEq.Build string String.eqb_spec.

(** ** The UTM zone rule of [ensure_utm] *)

(** [utm_zone = int((lon + 180) / 6) + 1] *)
Definition utm_zone (lon : float) : result Z :=
  q <-- int_of_float ((lon + 180) / 6)%float ;;
  Ok (q + 1)%Z.

(** [epsg = 32600 + utm_zone if lat >= 0 else 32700 + utm_zone] *)
Definition utm_epsg (lon lat : float) : result Z :=
  zone <-- utm_zone lon ;;
  Ok (if float_ge0 lat then 32600 + zone else 32700 + zone)%Z.

(** ** Layers and the geometry engine *)

(** A cell of the attribute table. *)
Inductive scalar : Type :=
| SNull
| SInt (z : Z)
| SStr (s : string).

Definition scalar_code (v : scalar) : unit + Z + string :=
  match v with
  | SNull => inl (inl tt)
  | SInt z => inl (inr z)
  | SStr s => inr s
  end.

Definition scalar_decode (c : unit + Z + string) : scalar :=
  match c with
  | inl (inl _) => SNull
  | inl (inr z) => SInt z
  | inr s => SStr s
  end.

Lemma scalar_codeK : cancel scalar_code scalar_decode.
Proof. by case. Qed.

HB.instance Definition _ := Equality.copy scalar (can_type scalar_codeK).

(** The attribute record of a feature: field name and value, in column
    order. *)
Definition Attrs : Type := seq (string * scalar).

(** What the code uses of shapely, pyproj and GEOS.  [transformer src dst]
    is the coordinate transformation between two EPSG codes, which pyproj
    may refuse to build. *)
Record GeoEngine : Type := {
  Geometry : eqType;
  Distance : Type;
  unary_union : seq Geometry -> Geometry;
  centroid : Geometry -> float * float;
  buffer : Geometry -> Distance -> Geometry;
  intersects : Geometry -> Geometry -> bool;
  transformer : Z -> Z -> result (Geometry -> Geometry)
}.

(** The point-set reading of the engine's predicates, as GEOS documents
    them: [pts g p] says that the point [p] belongs to the geometry [g]
    (interior or boundary).  Two geometries intersect when they share a
    point, and a union has the points of its members. *)
Record EngineLaws (E : GeoEngine) (Pt : Type)
    (pts : Geometry E -> Pt -> Prop) : Prop := {
  intersects_pts : forall a b : Geometry E,
    intersects a b <-> exists p, pts a p /\ pts b p;
  union_pts : forall (gs : seq (Geometry E)) p,
    pts (unary_union gs) p <-> exists2 g, g \in gs & pts g p
}.

Section Pipeline.

Variable E : GeoEngine.

Record Feature : Type := {
  geometry : Geometry E;
  attrs : Attrs
}.

Definition feature_code (f : Feature) : Geometry E * Attrs :=
  (geometry f, attrs f).

Definition feature_decode (p : Geometry E * Attrs) : Feature :=
  {| geometry := p.1; attrs := p.2 |}.

Lemma feature_codeK : cancel feature_code feature_decode.
Proof. by case. Qed.

HB.instance Definition _ := Equality.copy Feature (can_type feature_codeK).

(** A GeoDataFrame: the rows in order, and the CRS of the whole layer
    ([None] when the source declares none). *)
Record Layer : Type := {
  features : seq Feature;
  crs : option Z
}.

Definition geoms (gdf : Layer) : seq (Geometry E) :=
  [seq geometry f | f <- features gdf].

(** [gdf.unary_union] *)
Definition layer_union (gdf : Layer) : Geometry E :=
  unary_union (geoms gdf).

(** [gdf.set_crs(epsg=..., inplace=True)] on a layer without CRS: the
    coordinates are kept. *)
Definition set_crs (gdf : Layer) (epsg : Z) : Layer :=
  {| features := features gdf; crs := Some epsg |}.

Definition map_geometry (t : Geometry E -> Geometry E) (f : Feature) : Feature :=
  {| geometry := t (geometry f); attrs := attrs f |}.

(** [gdf.to_crs(epsg=...)]: a layer without CRS cannot be transformed
    ([ValueError]); otherwise every geometry goes through the transformer,
    rows and attributes are kept, and the result carries the target CRS. *)
Definition to_crs (gdf : Layer) (epsg : Z) : result Layer :=
  match crs gdf with
  | None => Raise ValueError
  | Some src =>
      t <-- transformer E src epsg ;;
      Ok {| features := [seq map_geometry t f | f <- features gdf];
            crs := Some epsg |}
  end.

(** *** [ensure_utm] *)

(** The EPSG code that [ensure_utm] computes before it reprojects. *)
Definition computed_epsg (gdf : Layer) : result Z :=
  let c := centroid (layer_union gdf) in
  let lon := c.1 in
  let lat := c.2 in
  utm_epsg lon lat.

Definition ensure_utm (gdf : Layer) : result (Layer * Z) :=
  epsg <-- computed_epsg gdf ;;
  match to_crs gdf epsg with
  | Ok gdf_m => Ok (gdf_m, epsg)
  | Raise _ =>
      gdf_m <-- to_crs gdf 3857 ;;
      Ok (gdf_m, 3857%Z)
  end.

(** *** [make_buffer] *)

Definition make_buffer (roads_gdf : Layer) (distance_m : Distance E) : result Layer :=
  r <-- ensure_utm roads_gdf ;;
  let roads_m := r.1 in
  let dissolved := layer_union roads_m in
  let buf := {| geometry := buffer dissolved distance_m; attrs := [::] |} in
  let buf_gdf := {| features := [:: buf]; crs := crs roads_m |} in
  to_crs buf_gdf 32643.

(** *** [count_intersecting_parcels] *)

(** [parcels_gdf.geometry.intersects(other)]: the boolean series, one entry
    per row. *)
Definition intersects_series (parcels_gdf : Layer) (other : Geometry E) : bitseq :=
  [seq intersects g other | g <- geoms parcels_gdf].

(** [gdf[mask]]: boolean indexing keeps the rows whose entry is true. *)
Definition select_rows (gdf : Layer) (m : bitseq) : Layer :=
  {| features := mask m (features gdf); crs := crs gdf |}.

Definition count_intersecting_parcels (parcels_gdf buffer_gdf : Layer) : nat * Layer :=
  let hits := intersects_series parcels_gdf (layer_union buffer_gdf) in
  (sumn [seq nat_of_bool b | b <- hits], select_rows parcels_gdf hits).

(** *** [read_vector_upload] *)

(** An uploaded file: its declared name and its bytes. *)
Record UploadedFile : Type := {
  name : string;
  content : seq Byte.byte
}.

(** The file system and the readers behind the loader.
    [extract_listdir data] stands for lines 26-31: the bytes are written to
    the scratch directory as [uploaded.zip], the archive is extracted there,
    and [os.listdir] returns the names of the directory, in its order.
    [read_extracted data f] is [gpd.read_file] on the extracted entry [f];
    [read_geojson data] is [gpd.read_file] on the upload itself. *)
Record FileIO : Type := {
  extract_listdir : seq Byte.byte -> result (seq string);
  read_extracted : seq Byte.byte -> string -> result Layer;
  read_geojson : seq Byte.byte -> result Layer
}.

Variable io : FileIO.

(** What [st.error] reports before the loader returns [None]. *)
Inductive LoadError : Type :=
| NoGeometryFound            (* No .shp file found in uploaded ZIP. *)
| ZipParseError (e : exn)    (* Error reading shapefile ZIP: ... *)
| JsonParseError (e : exn)   (* Error reading GeoJSON: ... *)
| UnsupportedFormat.         (* Unsupported file type. ... *)

Inductive LoadOutcome : Type :=
| Loaded (gdf : Layer)       (* return gdf *)
| NoUpload                   (* uploaded_file is None: return None *)
| Rejected (err : LoadError) (* st.error(...); return None *)
| Escaped (e : exn).         (* an exception leaves the function *)

(** [[... for f in os.listdir(tmpdir) if f.endswith(".shp")]] *)
Definition shp_files (names : seq string) : seq string :=
  [seq f <- names | endswith f ".shp"].

Definition parse_zip (data : seq Byte.byte) : Layer + LoadError :=
  match extract_listdir io data with
  | Raise e => inr (ZipParseError e)
  | Ok names =>
      match shp_files names with
      | [::] => inr NoGeometryFound
      | f :: _ =>
          match read_extracted io data f with
          | Ok gdf => inl gdf
          | Raise e => inr (ZipParseError e)
          end
      end
  end.

Definition parse_geojson (data : seq Byte.byte) : Layer + LoadError :=
  match read_geojson io data with
  | Ok gdf => inl gdf
  | Raise e => inr (JsonParseError e)
  end.

(** Lines 21-48: the branch on the lower-cased file name. *)
Definition parse_upload (up : UploadedFile) : Layer + LoadError :=
  let name := lower (name up) in
  if endswith name ".zip" then parse_zip (content up)
  else if endswith name ".geojson" || endswith name ".json" then
    parse_geojson (content up)
  else inr UnsupportedFormat.

(** Lines 50-53. *)
Definition normalise_crs (gdf : Layer) : result Layer :=
  match crs gdf with
  | None => Ok (set_crs gdf 32643)
  | Some _ => to_crs gdf 32643
  end.

Definition read_vector_upload (uploaded_file : option UploadedFile) : LoadOutcome :=
  match uploaded_file with
  | None => NoUpload
  | Some up =>
      match parse_upload up with
      | inr err => Rejected err
      | inl gdf =>
          match normalise_crs gdf with
          | Ok gdf' => Loaded gdf'
          | Raise e => Escaped e
          end
      end
  end.

End Pipeline.

Arguments NoUpload {E}.
Arguments Rejected {E} err.
Arguments Escaped {E} e.

(** ** The application around the helpers *)

(** [buffer_choices = [10, 50, 100, 200, 250]] *)
Definition buffer_choices : seq Z := [:: 10; 50; 100; 200; 250]%Z.

(** The distances of a run: [multi_select_buffers] after
    [if selected_buffer not in multi_select_buffers:
       multi_select_buffers.insert(0, selected_buffer)]. *)
Definition final_distances (selected_buffer : Z) (multi_select_buffers : seq Z) : seq Z :=
  if selected_buffer \in multi_select_buffers then multi_select_buffers
  else selected_buffer :: multi_select_buffers.

Section Application.

Variable E : GeoEngine.

(** *** [fetch_roads_from_place] *)

(** [osm_edges place_name network_type]: the edges of the road graph of the
    place as a layer ([ox.graph_from_place], then [ox.graph_to_gdfs] and
    [reset_index]), or the exception of the lookup. *)
Variable osm_edges : string -> string -> result (Layer E).

Inductive FetchOutcome : Type :=
| Fetched (gdf_edges : Layer E)  (* return gdf_edges *)
| FetchFailed (e : exn).         (* st.error("Error fetching OSM data: ..."); return None *)

Definition fetch_roads_from_place (place_name network_type : string) : FetchOutcome :=
  match (gdf_edges <-- osm_edges place_name network_type ;;
         to_crs gdf_edges 32643) with
  | Ok gdf_edges => Fetched gdf_edges
  | Raise e => FetchFailed e
  end.

(** *** The processing block *)

(** One entry of [results]: the keys [distance_m], [buffer],
    [intersections] and [count]. *)
Record AnalysisResult : Type := {
  res_distance_m : Distance E;
  res_buffer : Layer E;
  res_intersections : Layer E;
  res_count : nat
}.

(** The two [st.error] messages that end in [st.stop()]. *)
Inductive MissingInput : Type :=
| RoadsRequired      (* Roads data is required. Upload or fetch roads first. *)
| ParcelsRequired.   (* Parcels data is required. Upload parcels first. *)

Inductive RunOutcome : Type :=
| Stopped (missing : MissingInput)
| Finished (results : seq AnalysisResult)
| Crashed (e : exn).             (* an exception ends the script run *)

(** The loop [for dist in multi_select_buffers]: buffer, overlay, the entry
    appended to [results], and the two reprojections for display. *)
Fixpoint run_distances (roads_gdf parcels_gdf : Layer E)
    (dists : seq (Distance E)) : result (seq AnalysisResult) :=
  match dists with
  | [::] => Ok [::]
  | dist :: dists' =>
      buf_gdf <-- make_buffer roads_gdf dist ;;
      let r := count_intersecting_parcels parcels_gdf buf_gdf in
      let entry := {| res_distance_m := dist; res_buffer := buf_gdf;
                      res_intersections := r.2; res_count := r.1 |} in
      buf_disp <-- to_crs buf_gdf 4326 ;;
      inter_disp <-- to_crs r.2 4326 ;;
      results <-- run_distances roads_gdf parcels_gdf dists' ;;
      Ok (entry :: results)
  end.

(** The block under [if run_button]: the two checks for a missing layer,
    the reprojection of both layers to EPSG:32643 and, for display, to
    EPSG:4326, then the loop.  The map centre is computed under its own
    [try] and cannot end the run; the geometry-column check does nothing on
    a [Layer], which has its geometry column; the calls that draw the map
    and the widgets (folium, streamlit, and the payloads built for them)
    are left out. *)
Definition run_processing (roads_gdf parcels_gdf : option (Layer E))
    (dists : seq (Distance E)) : RunOutcome :=
  match roads_gdf, parcels_gdf with
  | None, _ => Stopped RoadsRequired
  | Some _, None => Stopped ParcelsRequired
  | Some roads, Some parcels =>
      match (roads' <-- to_crs roads 32643 ;;
             parcels' <-- to_crs parcels 32643 ;;
             parcels_display <-- to_crs parcels' 4326 ;;
             roads_display <-- to_crs roads' 4326 ;;
             run_distances roads' parcels' dists) with
      | Ok results => Finished results
      | Raise e => Crashed e
      end
  end.

(** [gdf.empty] *)
Definition layer_empty (gdf : Layer E) : bool := nilp (features gdf).

(** The results block: which of the two downloads of an entry is built,
    the buffer's ([if not r["buffer"].empty]) and the intersection's
    ([if not r["intersections"].empty]). *)
Definition downloads (r : AnalysisResult) : bool * bool :=
  (~~ layer_empty (res_buffer r), ~~ layer_empty (res_intersections r)).

End Application.

Arguments FetchFailed {E} e.
Arguments Stopped {E} missing.
Arguments Crashed {E} e.

(** ** A small engine to run the pipeline on

    Geometries are finite sets of grid points (multipoints), with
    coordinates in tenths of a unit.  Every known EPSG code shares the
    grid's coordinates; an unknown code is refused, as pyproj refuses it. *)

Module Grid.

Definition point : Type := (Z * Z)%type.
Definition multipoint : Type := seq point.

Definition merge (gs : seq multipoint) : multipoint := undup (flatten gs).

Definition float_of_Z (z : Z) : float :=
  match z with
  | Z0 => 0%float
  | Zpos _ => PrimFloat.of_uint63 (Uint63.of_Z z)
  | Zneg p => PrimFloat.opp (PrimFloat.of_uint63 (Uint63.of_Z (Zpos p)))
  end.

Definition zsum (zs : seq Z) : Z := foldr Z.add 0%Z zs.

(** The mean of the points, in units; NaN on the empty multipoint. *)
Definition mean_point (g : multipoint) : float * float :=
  let n := float_of_Z (Z.of_nat (size g)) in
  ((float_of_Z (zsum [seq p.1 | p <- g]) / n / 10)%float,
   (float_of_Z (zsum [seq p.2 | p <- g]) / n / 10)%float).

Definition offsets (d : nat) : seq Z :=
  [seq (Z.of_nat i - Z.of_nat d)%Z | i <- iota 0 (2 * d + 1)].

(** The square of half-width [d] tenths around every point. *)
Definition square (g : multipoint) (d : nat) : multipoint :=
  undup (flatten [seq [seq ((p.1 + dx)%Z, (p.2 + dy)%Z) | dx <- offsets d, dy <- offsets d] | p <- g]).

Definition share_point (a b : multipoint) : bool := has (mem b) a.

Definition known_epsg (code : Z) : bool :=
  [|| (code == 4326%Z), (code == 3857%Z),
      (32601 <=? code)%Z && (code <=? 32660)%Z |
      (32701 <=? code)%Z && (code <=? 32760)%Z].

Definition projection (src dst : Z) : result (multipoint -> multipoint) :=
  if known_epsg src && known_epsg dst then Ok id
  else Raise (LibError "CRSError").

Definition engine : GeoEngine := {|
  Geometry := multipoint;
  Distance := nat;
  unary_union := merge;
  centroid := mean_point;
  buffer := square;
  intersects := share_point;
  transformer := projection
|}.

Definition pts (g : multipoint) (p : point) : Prop := p \in g.

Definition row (g : multipoint) (a : Attrs) : Feature engine :=
  {| geometry := (g : Geometry engine); attrs := a |}.

Definition layer (fs : seq (Feature engine)) (c : option Z) : Layer engine :=
  {| features := fs; crs := c |}.

(** One point at x = 77.5, y = 12.9. *)
Definition bengaluru : multipoint := [:: (775, 129)%Z].

(** One point at x = 500000, y = 0: in EPSG:32643 the central meridian
    (75 degrees east) on the equator. *)
Definition meridian_75E : multipoint := [:: (5000000, 0)%Z].

(** The same point in three layers: in degrees (EPSG:4326), without a
    declared CRS, and the meridian point as a road layer in the working
    CRS. *)
Definition bengaluru_degrees : Layer engine :=
  layer [:: row bengaluru [::]] (Some 4326%Z).

Definition bengaluru_naive : Layer engine :=
  layer [:: row bengaluru [::]] None.

Definition meridian_roads : Layer engine :=
  layer [:: row meridian_75E [:: ("name"%string, SStr "NH 48")]] (Some 32643%Z).

(** Three parcels and the buffer of half-width 1 around the point (1, 2):
    the first and the third parcel meet it. *)
Definition parcels : Layer engine :=
  layer [:: row [:: (1, 1)%Z] [:: ("id"%string, SInt 1)];
            row [:: (5, 5)%Z] [:: ("id"%string, SInt 2)];
            row [:: (2, 1)%Z; (9, 9)%Z] [:: ("id"%string, SInt 3)]]
        (Some 32643%Z).

Definition road_buffer : Layer engine :=
  layer [:: row (square [:: (1, 2)%Z] 1) [::]] (Some 32643%Z).

Definition no_parcels : Layer engine := layer [::] (Some 32643%Z).

(** The roads of [bengaluru_degrees] with another attribute table. *)
Definition bengaluru_renamed : Layer engine :=
  layer [:: row bengaluru [:: ("name"%string, SStr "MG Road")]] (Some 4326%Z).

Definition io (names : seq string) (gdf : Layer engine) : FileIO engine := {|
  extract_listdir := fun _ => Ok names;
  read_extracted := fun _ _ => Ok gdf;
  read_geojson := fun _ => Ok gdf
|}.

Definition shapefile_zip : UploadedFile :=
  {| name := "Roads.ZIP"; content := [::] |}.

Definition extracted : seq string :=
  [:: "uploaded.zip"; "roads.dbf"; "roads.shp"; "roads.shx"; "roads.prj"]%string.


(** The road graph of every place, as one point in degrees. *)
Definition osm (place_name network_type : string) : result (Layer engine) :=
  Ok bengaluru_degrees.

Definition shp_upload : UploadedFile :=
  {| name := "Parcels.SHP"; content := [::] |}.

(** A second buffer around the same point, of half-width 2. *)
Definition wide_buffer : Layer engine :=
  layer [:: row (square [:: (1, 2)%Z] 2) [::]] (Some 32643%Z).

(** A road at the point (1, 2), in degrees, and a run over two distances
    with its entries. *)
Definition small_road : Layer engine :=
  layer [:: row [:: (1, 2)%Z] [:: ("name"%string, SStr "lane")]] (Some 4326%Z).

Definition sample_run : RunOutcome engine :=
  run_processing (Some small_road) (Some parcels) [:: 1; 2].

Definition sample_results : seq (AnalysisResult engine) :=
  if sample_run is Finished results then results else [::].

End Grid.

(** ** Python helpers on concrete values *)

Example utm_zone_bengaluru : utm_zone 77.5%float = Ok 43%Z.
Proof. by vm_compute. Qed.

Example utm_zone_greenwich : utm_zone 0%float = Ok 31%Z.
Proof. by vm_compute. Qed.

Example utm_zone_west : utm_zone (-179.5)%float = Ok 1%Z.
Proof. by vm_compute. Qed.

Example utm_zone_nan : utm_zone nan = Raise ValueError.
Proof. by vm_compute. Qed.

Example utm_epsg_south : utm_epsg 18.5%float (-33.5)%float = Ok 32734%Z.
Proof. by vm_compute. Qed.

Example endswith_zip : endswith (lower "Roads.ZIP") ".zip" = true.
Proof. by vm_compute. Qed.

Example endswith_short : endswith "shp" ".shp" = false.
Proof. by vm_compute. Qed.

(** [int] truncates toward zero: west of -180 the zone is not the floor. *)
Example utm_zone_truncates : utm_zone (-200)%float = Ok (-2)%Z.
Proof. by vm_compute. Qed.

(** ** Reprojection *)

Section Reprojection.

Variable E : GeoEngine.
Implicit Types (gdf : Layer E) (epsg : Z).

Lemma geoms_map_geometry (t : Geometry E -> Geometry E) (fs : seq (Feature E)) :
  [seq geometry f | f <- [seq map_geometry t f | f <- fs]]
  = [seq t g | g <- [seq geometry f | f <- fs]].
Proof. by elim: fs => //= f fs ->. Qed.

(** A successful [to_crs]: the layer had a CRS, pyproj built the
    transformer, and the result is the layer mapped through it. *)
Lemma to_crs_ok gdf epsg g :
  to_crs gdf epsg = Ok g ->
  exists src t,
    [/\ crs gdf = Some src, transformer E src epsg = Ok t &
        g = {| features := [seq map_geometry t f | f <- features gdf];
               crs := Some epsg |}].
Proof.
rewrite /to_crs; case: (crs gdf) => [src|] //.
case Et: (transformer E src epsg) => [t|e] //= [<-].
by exists src, t.
Qed.

Lemma to_crs_crs gdf epsg g : to_crs gdf epsg = Ok g -> crs g = Some epsg.
Proof. by move=> /to_crs_ok [src [t [_ _ ->]]]. Qed.

Lemma to_crs_size gdf epsg g :
  to_crs gdf epsg = Ok g -> size (features g) = size (features gdf).
Proof. by move=> /to_crs_ok [src [t [_ _ ->]]]; rewrite /= size_map. Qed.

Lemma to_crs_attrs gdf epsg g :
  to_crs gdf epsg = Ok g ->
  [seq attrs f | f <- features g] = [seq attrs f | f <- features gdf].
Proof.
move=> /to_crs_ok [src [t [_ _ ->]]] /=.
by rewrite -map_comp; apply: eq_map.
Qed.

Lemma to_crs_naive gdf epsg : crs gdf = None -> to_crs gdf epsg = Raise ValueError.
Proof. by rewrite /to_crs => ->. Qed.

(** The outcome of [to_crs], as far as geometry goes, is a function of the
    geometries and the CRS of the layer. *)
Definition same_geometry (r1 r2 : result (Layer E)) : Prop :=
  match r1, r2 with
  | Ok g1, Ok g2 => geoms g1 = geoms g2 /\ crs g1 = crs g2
  | Raise e1, Raise e2 => e1 = e2
  | _, _ => False
  end.

Lemma to_crs_same_geometry gdf1 gdf2 epsg :
  geoms gdf1 = geoms gdf2 -> crs gdf1 = crs gdf2 ->
  same_geometry (to_crs gdf1 epsg) (to_crs gdf2 epsg).
Proof.
rewrite /to_crs /geoms => Eg <-; case: (crs gdf1) => [src|] //=.
case: (transformer E src epsg) => [t|e] //=; split=> //.
by rewrite /geoms /= !geoms_map_geometry Eg.
Qed.

(** The code that [ensure_utm] computes reads the centroid's coordinates as
    they are: the CRS of the layer plays no part in it. *)
Lemma computed_epsg_crs_blind gdf c :
  computed_epsg {| features := features gdf; crs := c |} = computed_epsg gdf.
Proof. by []. Qed.

Lemma computed_epsg_same_geometry gdf1 gdf2 :
  geoms gdf1 = geoms gdf2 -> computed_epsg gdf1 = computed_epsg gdf2.
Proof. by rewrite /computed_epsg /layer_union => ->. Qed.

End Reprojection.

(** ** The UTM projector *)

Section Projector.

Variable E : GeoEngine.
Implicit Types (gdf : Layer E) (epsg : Z).

(** Whatever [ensure_utm] returns is the input mapped through one
    transformer, tagged with the code it is returned with; that code is the
    computed one or the fallback. *)
Lemma ensure_utm_ok gdf gdf_m code :
  ensure_utm gdf = Ok (gdf_m, code) ->
  [/\ to_crs gdf code = Ok gdf_m, crs gdf_m = Some code &
      computed_epsg gdf = Ok code \/ code = 3857%Z].
Proof.
rewrite /ensure_utm; case Ec: (computed_epsg gdf) => [epsg|e] //=.
case Et: (to_crs gdf epsg) => [g|e] /=.
  by case=> <- <-; split; rewrite ?(to_crs_crs Et) //; left.
case Ef: (to_crs gdf 3857) => [g|e'] //= [<- <-].
by split; rewrite ?(to_crs_crs Ef) //; right.
Qed.

(** C3, as the code has it: when the reprojection into the computed UTM code
    fails, [ensure_utm] drops that error and answers with the outcome of
    reprojecting to EPSG:3857: the reprojected layer and the code 3857 when
    that succeeds, and the error of the fallback reprojection when it fails
    too. *)
Theorem ensure_utm_fallback gdf epsg e :
  computed_epsg gdf = Ok epsg ->
  to_crs gdf epsg = Raise e ->
  match to_crs gdf 3857 with
  | Ok gdf_m => ensure_utm gdf = Ok (gdf_m, 3857%Z) /\ crs gdf_m = Some 3857%Z
  | Raise e' => ensure_utm gdf = Raise e'
  end.
Proof.
move=> Ec Et; rewrite /ensure_utm Ec /= Et.
by case Ef: (to_crs gdf 3857) => [g|e'] //=; rewrite (to_crs_crs Ef).
Qed.

(** C2, as the code has it: a layer whose union's centroid has x = 77.5 and
    y = 12.9 makes [ensure_utm] compute zone 43 and EPSG code 32643, the
    code it then reprojects into. *)
Theorem ensure_utm_bengaluru gdf :
  centroid (layer_union gdf) = (77.5, 12.9)%float ->
  [/\ utm_zone 77.5%float = Ok 43%Z,
      computed_epsg gdf = Ok 32643%Z &
      forall gdf_m, to_crs gdf 32643 = Ok gdf_m ->
        ensure_utm gdf = Ok (gdf_m, 32643%Z)].
Proof.
move=> Ec.
have Ee: computed_epsg gdf = Ok 32643%Z by rewrite /computed_epsg Ec.
by split=> // gdf_m Et; rewrite /ensure_utm Ee /= Et.
Qed.

End Projector.

(** C1 at a road layer in the working CRS: one point at x = 500000, y = 0 in
    EPSG:32643, which is 75 degrees east on the equator.  [ensure_utm] takes
    the easting for a longitude: it computes the code 115964, which no
    projection has, and ends on the fallback; the zone of the point's
    longitude and latitude is 43, code 32643. *)
Theorem ensure_utm_reads_raw_coordinates :
  [/\ crs Grid.meridian_roads = Some 32643%Z,
      centroid (layer_union Grid.meridian_roads) = (500000, 0)%float,
      computed_epsg Grid.meridian_roads = Ok 115964%Z,
      ensure_utm Grid.meridian_roads
        = Ok (Grid.layer (features Grid.meridian_roads) (Some 3857%Z), 3857%Z) &
      utm_epsg 75%float 0%float = Ok 32643%Z].
Proof. by split; vm_compute. Qed.

(** C2 as stated fails: at x = 77.5, y = 12.9 the zone is not 42 and the
    code is not 32642. *)
Lemma bengaluru_zone_is_not_42 :
  centroid (layer_union Grid.bengaluru_degrees) = (77.5, 12.9)%float /\
  utm_zone 77.5%float <> Ok 42%Z /\
  computed_epsg Grid.bengaluru_degrees <> Ok 32642%Z.
Proof. by split; [vm_compute | split; vm_compute]. Qed.

Lemma ensure_utm_bengaluru_witness :
  centroid (layer_union Grid.bengaluru_degrees) = (77.5, 12.9)%float /\
  computed_epsg Grid.bengaluru_degrees = Ok 32643%Z.
Proof.
have Ec: centroid (layer_union Grid.bengaluru_degrees) = (77.5, 12.9)%float.
  by vm_compute.
have [_ Hcode _] := ensure_utm_bengaluru Ec.
exact: (conj Ec Hcode).
Defined.

(** C3 as stated fails: on a layer without CRS both reprojections raise, and
    the error leaves [ensure_utm]. *)
Lemma ensure_utm_naive_layer_raises :
  [/\ computed_epsg Grid.bengaluru_naive = Ok 32643%Z,
      to_crs Grid.bengaluru_naive 32643 = Raise ValueError &
      ensure_utm Grid.bengaluru_naive = Raise ValueError].
Proof. by split; vm_compute. Qed.

Lemma ensure_utm_fallback_witness :
  ensure_utm Grid.meridian_roads
  = Ok (Grid.layer (features Grid.meridian_roads) (Some 3857%Z), 3857%Z).
Proof.
have Ec: computed_epsg Grid.meridian_roads = Ok 115964%Z by vm_compute.
have Et: to_crs Grid.meridian_roads 115964 = Raise (LibError "CRSError").
  by vm_compute.
by have [-> _] := ensure_utm_fallback Ec Et.
Defined.

(** ** The overlay matcher *)

Section Overlay.

Variable E : GeoEngine.
Implicit Types (parcels buf : Layer E) (fs : seq (Feature E)).

Lemma sum_series (other : Geometry E) fs :
  sumn [seq nat_of_bool b
       | b <- [seq intersects g other | g <- [seq geometry f | f <- fs]]]
  = count (fun f => intersects (geometry f) other) fs.
Proof. by elim: fs => //= f fs ->. Qed.

Lemma mask_series (other : Geometry E) fs :
  mask [seq intersects g other | g <- [seq geometry f | f <- fs]] fs
  = [seq f <- fs | intersects (geometry f) other].
Proof. by elim: fs => //= f fs ->; case: ifP. Qed.

(** The two results in closed form: a count and a filter under the same
    test, against the union of the buffer layer. *)
Lemma count_intersecting_parcelsE parcels buf :
  count_intersecting_parcels parcels buf
  = (count (fun f => intersects (geometry f) (layer_union buf)) (features parcels),
     {| features := [seq f <- features parcels
                    | intersects (geometry f) (layer_union buf)];
        crs := crs parcels |}).
Proof.
by rewrite /count_intersecting_parcels /intersects_series /select_rows /geoms
           sum_series mask_series.
Qed.

(** C10: the count is the number of rows of the returned sub-layer, and the
    sub-layer is made of rows of the parcel layer, in their order. *)
Theorem count_matches_sublayer parcels buf :
  let r := count_intersecting_parcels parcels buf in
  [/\ r.1 = size (features r.2),
      subseq (features r.2) (features parcels) &
      forall f, f \in features r.2 -> f \in features parcels].
Proof.
rewrite count_intersecting_parcelsE /=; split.
- by rewrite size_filter.
- exact: filter_subseq.
- by move=> f; rewrite mem_filter => /andP [].
Qed.

Section PointSets.

Variables (Pt : Type) (pts : Geometry E -> Pt -> Prop).
Hypothesis laws : EngineLaws pts.

(** C4: every parcel row is tested for a shared point with the dissolved
    buffer geometry; the count is the number of rows that pass, and the
    sub-layer is those rows, unchanged and in their order. *)
Theorem overlay_counts_touching parcels buf (touches : pred (Feature E)) :
  (forall f, touches f <->
             exists p, pts (geometry f) p /\ pts (layer_union buf) p) ->
  let r := count_intersecting_parcels parcels buf in
  [/\ r.1 = count touches (features parcels),
      features r.2 = [seq f <- features parcels | touches f],
      subseq (features r.2) (features parcels),
      forall f, f \in features r.2 <->
                f \in features parcels /\
                exists p, pts (geometry f) p /\ pts (layer_union buf) p &
      crs r.2 = crs parcels].
Proof.
move=> touchesP; rewrite count_intersecting_parcelsE /=.
have Et: (fun f => intersects (geometry f) (layer_union buf)) =1 touches.
  move=> f; apply/idP/idP.
  - by move/(intersects_pts laws)/touchesP.
  - by move/touchesP/(intersects_pts laws).
split=> //.
- exact: eq_count.
- exact: eq_filter.
- exact: filter_subseq.
- move=> f; rewrite mem_filter; split.
  + by case/andP=> /(intersects_pts laws) Hp Hf.
  + by case=> Hf /(intersects_pts laws) Hp; apply/andP.
Qed.

(** C8: an empty parcel layer gives the count 0 and an empty sub-layer; a
    buffer whose union has no point, and a buffer layer without rows, give
    the count 0 and keep no row.  The function is total: it has a result on
    every input. *)
Theorem overlay_empty_inputs parcels buf :
  [/\ features parcels = [::] ->
      count_intersecting_parcels parcels buf
      = (0, {| features := [::]; crs := crs parcels |}),
      (forall p, ~ pts (layer_union buf) p) ->
      count_intersecting_parcels parcels buf
      = (0, {| features := [::]; crs := crs parcels |}) &
      features buf = [::] ->
      count_intersecting_parcels parcels buf
      = (0, {| features := [::]; crs := crs parcels |})].
Proof.
have none: (forall p, ~ pts (layer_union buf) p) ->
    count_intersecting_parcels parcels buf
    = (0, {| features := [::]; crs := crs parcels |}).
  move=> empty; rewrite count_intersecting_parcelsE.
  have E0: (fun f => intersects (geometry f) (layer_union buf)) =1 pred0.
    move=> f /=; apply/negP => /(intersects_pts laws) [p [_ Hp]].
    exact: (empty p).
  by rewrite (eq_count E0) (eq_filter E0) count_pred0 filter_pred0.
split=> //.
- by rewrite count_intersecting_parcelsE => ->.
- move=> nobuf; apply: none => p /(union_pts laws) [g].
  by rewrite /geoms nobuf.
Qed.

End PointSets.

End Overlay.

(** The grid engine reads as point sets. *)
Lemma grid_laws : @EngineLaws Grid.engine Grid.point Grid.pts.
Proof.
split.
- move=> a b; rewrite /= /Grid.share_point /Grid.pts; split.
  + by case/hasP=> p pa pb; exists p.
  + by case=> p [pa pb]; apply/hasP; exists p.
- move=> gs p; rewrite /= /Grid.merge /Grid.pts mem_undup; split.
  + by case/flattenP=> g gin pin; exists g.
  + by case=> g gin pin; apply/flattenP; exists g.
Qed.

Lemma overlay_counts_touching_witness :
  (count_intersecting_parcels Grid.parcels Grid.road_buffer).1 = 2.
Proof.
pose touches (f : Feature Grid.engine) :=
  Grid.share_point (geometry f) (layer_union Grid.road_buffer).
have touchesP f : touches f <->
    exists p, Grid.pts (geometry f) p /\ Grid.pts (layer_union Grid.road_buffer) p.
  exact: (intersects_pts grid_laws).
have [-> _ _ _ _] :=
  @overlay_counts_touching _ _ _ grid_laws Grid.parcels Grid.road_buffer touches touchesP.
by vm_compute.
Defined.

Lemma overlay_empty_inputs_witness :
  count_intersecting_parcels Grid.no_parcels Grid.road_buffer
  = (0, Grid.no_parcels).
Proof.
have [empty _ _] := overlay_empty_inputs grid_laws Grid.no_parcels Grid.road_buffer.
exact: empty.
Defined.

(** ** The buffer builder *)

Section Buffer.

Variable E : GeoEngine.
Implicit Types (roads : Layer E) (d : Distance E).

(** An error of the UTM projector is the error of [make_buffer]. *)
Lemma make_buffer_raises roads d e :
  ensure_utm roads = Raise e -> make_buffer roads d = Raise e.
Proof. by rewrite /make_buffer => ->. Qed.

(** C6: [make_buffer] succeeds exactly when the UTM projector returns a
    layer and the way back to EPSG:32643 exists; its result is then one row,
    the buffer of the union of the projected geometries, reprojected to
    EPSG:32643. *)
Theorem make_buffer_spec roads d b :
  make_buffer roads d = Ok b <->
  exists roads_m epsg t,
    [/\ ensure_utm roads = Ok (roads_m, epsg),
        to_crs roads epsg = Ok roads_m,
        transformer E epsg 32643 = Ok t &
        b = {| features :=
                 [:: {| geometry := t (buffer (unary_union (geoms roads_m)) d);
                        attrs := [::] |}];
               crs := Some 32643%Z |}].
Proof.
rewrite /make_buffer; split.
- case Eu: (ensure_utm roads) => [[roads_m epsg]|e] //= Eb.
  have [Et Ec _] := ensure_utm_ok Eu.
  have [src [t [/= Esrc Etr ->]]] := to_crs_ok Eb.
  exists roads_m, epsg, t; split=> //.
  by move: Esrc Etr; rewrite Ec => -[<-].
- case=> roads_m [epsg [t [Eu _ Etr ->]]].
  have [_ Ec _] := ensure_utm_ok Eu.
  by rewrite Eu /= /to_crs /= Ec /= Etr.
Qed.

Lemma ensure_utm_same_geometry roads1 roads2 :
  geoms roads1 = geoms roads2 -> crs roads1 = crs roads2 ->
  match ensure_utm roads1, ensure_utm roads2 with
  | Ok r1, Ok r2 => [/\ geoms r1.1 = geoms r2.1, crs r1.1 = crs r2.1 & r1.2 = r2.2]
  | Raise e1, Raise e2 => e1 = e2
  | _, _ => False
  end.
Proof.
move=> Eg Ec; rewrite /ensure_utm (computed_epsg_same_geometry Eg).
case: (computed_epsg roads2) => [epsg|e] //=.
have := to_crs_same_geometry epsg Eg Ec.
case: (to_crs roads1 epsg) => [g1|e1]; case: (to_crs roads2 epsg) => [g2|e2] //=.
  by case.
move=> _; have := to_crs_same_geometry 3857 Eg Ec.
case: (to_crs roads1 3857) => [g1|e1']; case: (to_crs roads2 3857) => [g2|e2'] //=.
by case.
Qed.

(** C9: two runs of [make_buffer] at the same distance, on layers with the
    same geometries in the same CRS, end alike: the same buffer layer, or
    the same error.  The attribute tables of the inputs play no part. *)
Theorem make_buffer_deterministic roads1 roads2 d :
  geoms roads1 = geoms roads2 -> crs roads1 = crs roads2 ->
  make_buffer roads1 d = make_buffer roads2 d.
Proof.
move=> Eg Ec; have := ensure_utm_same_geometry Eg Ec.
rewrite /make_buffer.
case: (ensure_utm roads1) => [[g1 c1]|e1]; case: (ensure_utm roads2) => [[g2 c2]|e2] //=.
  by case; rewrite /layer_union => -> -> _.
by move=> ->.
Qed.

End Buffer.

Lemma make_buffer_deterministic_witness :
  make_buffer Grid.bengaluru_degrees 1 = make_buffer Grid.bengaluru_renamed 1 /\
  attrs (head (Grid.row [::] [::]) (features Grid.bengaluru_degrees))
  <> attrs (head (Grid.row [::] [::]) (features Grid.bengaluru_renamed)).
Proof.
split; last by [].
exact: (@make_buffer_deterministic Grid.engine Grid.bengaluru_degrees
          Grid.bengaluru_renamed 1 (erefl _) (erefl _)).
Defined.

(** [make_buffer] on a concrete road: the 3 x 3 square around the point, in
    one row, in EPSG:32643. *)
Example make_buffer_bengaluru :
  make_buffer Grid.bengaluru_degrees 1
  = Ok (Grid.layer [:: Grid.row (Grid.square Grid.bengaluru 1) [::]]
                   (Some 32643%Z)).
Proof. by vm_compute. Qed.

(** ** The layer loader *)

Section Loader.

Variable E : GeoEngine.
Variable io : FileIO E.
Implicit Types (up : UploadedFile) (gdf : Layer E).

(** C5: a parsed layer without CRS is returned as it is, tagged EPSG:32643,
    and the loader does not fail on it; a parsed layer with a CRS goes
    through [to_crs] to EPSG:32643.  What the loader returns carries exactly
    that CRS, with the rows and attributes of the source. *)
Theorem loader_normalises_crs up gdf :
  parse_upload io up = inl gdf ->
  [/\ crs gdf = None ->
      read_vector_upload io (Some up) = Loaded (set_crs gdf 32643),
      forall src, crs gdf = Some src ->
        match transformer E src 32643 with
        | Ok t =>
            read_vector_upload io (Some up)
            = Loaded {| features := [seq map_geometry t f | f <- features gdf];
                        crs := Some 32643%Z |}
        | Raise e => read_vector_upload io (Some up) = Escaped e
        end &
      forall gdf', read_vector_upload io (Some up) = Loaded gdf' ->
        [/\ crs gdf' = Some 32643%Z,
            size (features gdf') = size (features gdf) &
            [seq attrs f | f <- features gdf']
            = [seq attrs f | f <- features gdf]]].
Proof.
move=> Ep; rewrite /read_vector_upload Ep /normalise_crs; split.
- by move=> ->.
- by move=> src Ec; rewrite Ec /to_crs Ec; case: (transformer E src 32643).
- move=> gdf'; case Ec: (crs gdf) => [src|]; last by case=> <-.
  by case Et: (to_crs gdf 32643) => [g|e] // [<-];
     rewrite (to_crs_crs Et) (to_crs_size Et) (to_crs_attrs Et).
Qed.

(** C7: on an archive the loader reads one entry, the first name of the
    extraction directory that ends in [.shp]; when no name does, it reports
    that no geometry file was found and returns no layer, and it reports
    that in no other case. *)
Theorem loader_picks_one_shp up names :
  endswith (lower (name up)) ".zip" ->
  extract_listdir io (content up) = Ok names ->
  [/\ ~~ has (fun f => endswith f ".shp") names ->
      read_vector_upload io (Some up) = Rejected NoGeometryFound,
      forall f rest, shp_files names = f :: rest ->
        [/\ f \in names, endswith f ".shp" &
            parse_upload io up
            = match read_extracted io (content up) f with
              | Ok gdf => inl gdf
              | Raise e => inr (ZipParseError e)
              end] &
      read_vector_upload io (Some up) = Rejected NoGeometryFound ->
      ~~ has (fun f => endswith f ".shp") names].
Proof.
move=> Ezip Ex; rewrite /read_vector_upload /parse_upload Ezip /parse_zip Ex.
split.
- by rewrite has_filter negbK -/(shp_files names) => /eqP ->.
- move=> f rest Es; rewrite Es.
  have: f \in shp_files names by rewrite Es mem_head.
  by rewrite mem_filter => /andP [-> ->].
- rewrite has_filter negbK -/(shp_files names).
  case: (shp_files names) => [|f rest] //.
  case: (read_extracted io (content up) f) => [gdf|e] //.
  by case: (normalise_crs gdf).
Qed.

End Loader.

Lemma loader_normalises_crs_witness :
  read_vector_upload (Grid.io Grid.extracted Grid.bengaluru_naive)
    (Some Grid.shapefile_zip)
  = Loaded (set_crs Grid.bengaluru_naive 32643).
Proof.
have [naive _ _] :=
  @loader_normalises_crs Grid.engine (Grid.io Grid.extracted Grid.bengaluru_naive)
    Grid.shapefile_zip Grid.bengaluru_naive (erefl _).
exact: naive.
Defined.

Lemma loader_picks_one_shp_witness :
  shp_files Grid.extracted = [:: "roads.shp"%string] /\
  parse_upload (Grid.io Grid.extracted Grid.bengaluru_degrees) Grid.shapefile_zip
  = inl Grid.bengaluru_degrees.
Proof.
have [_ one _] :=
  @loader_picks_one_shp Grid.engine (Grid.io Grid.extracted Grid.bengaluru_degrees)
    Grid.shapefile_zip Grid.extracted (erefl _) (erefl _).
have Es: shp_files Grid.extracted = [:: "roads.shp"%string] by vm_compute.
by split=> //; case: (one _ _ Es).
Defined.

(** ** More on the overlay matcher *)

Section OverlayAlgebra.

Variable E : GeoEngine.
Implicit Types (parcels buf : Layer E).

(** X1: overlaying the returned sub-layer against the same buffer gives the
    same count and the same sub-layer again. *)
Theorem overlay_idempotent parcels buf :
  let r := count_intersecting_parcels parcels buf in
  count_intersecting_parcels r.2 buf = r.
Proof.
cbv zeta; rewrite !count_intersecting_parcelsE /= filter_id count_filter.
by congr (_, _); apply: eq_count => f /=; rewrite andbb.
Qed.

(** X2: the parcel rows that are not returned, overlaid against the same
    buffer, give the count 0 and no row: the sub-layer and the rows left out
    split the parcel layer. *)
Theorem overlay_complement parcels buf :
  let r := count_intersecting_parcels parcels buf in
  let rest := {| features := [seq f <- features parcels | f \notin features r.2];
                 crs := crs parcels |} in
  count_intersecting_parcels rest buf
  = (0, {| features := [::]; crs := crs parcels |}).
Proof.
cbv zeta; rewrite !count_intersecting_parcelsE /= count_filter -filter_predI.
set hit := fun f => intersects (geometry f) (layer_union buf).
have out: {in features parcels,
            predI hit (fun f => f \notin [seq f <- features parcels | hit f])
            =1 pred0}.
  move=> f fin /=; rewrite mem_filter fin andbT.
  by case: (hit f).
by rewrite (eq_in_count out) (eq_in_filter out) count_pred0 filter_pred0.
Qed.

Section Monotone.

Variables (Pt : Type) (pts : Geometry E -> Pt -> Prop).
Hypothesis laws : EngineLaws pts.

(** X3: a buffer that covers another one catches at least its parcels: when
    every point of the union of [buf1] is a point of the union of [buf2],
    the sub-layer for [buf1] is a subsequence of the sub-layer for [buf2]
    and its count is not larger. *)
Theorem overlay_monotone parcels buf1 buf2 :
  (forall p, pts (layer_union buf1) p -> pts (layer_union buf2) p) ->
  let r1 := count_intersecting_parcels parcels buf1 in
  let r2 := count_intersecting_parcels parcels buf2 in
  subseq (features r1.2) (features r2.2) /\ r1.1 <= r2.1.
Proof.
move=> covers; cbv zeta; rewrite !count_intersecting_parcelsE /=.
set hit1 := fun f => intersects (geometry f) (layer_union buf1).
set hit2 := fun f => intersects (geometry f) (layer_union buf2).
have sub12: subpred hit1 hit2.
  move=> f /(intersects_pts laws) [p [pf p1]].
  by apply/(intersects_pts laws); exists p; split=> //; apply: covers.
split; last exact: sub_count.
have ->: [seq f <- features parcels | hit1 f]
         = [seq f <- [seq f <- features parcels | hit2 f] | hit1 f].
  rewrite -filter_predI; apply: eq_filter => f /=.
  by case h1: (hit1 f) => //; rewrite (sub12 _ h1).
exact: filter_subseq.
Qed.

End Monotone.

End OverlayAlgebra.

(** ** More on the projector and the buffer builder *)

Section ProjectorEdges.

Variable E : GeoEngine.
Implicit Types (gdf roads : Layer E).

(** [make_buffer] spelled out: the error of the projector, or the error of
    the way back to EPSG:32643, or the single buffered row. *)
Lemma make_buffer_outcome roads (d : Distance E) :
  make_buffer roads d
  = match ensure_utm roads with
    | Raise e => Raise e
    | Ok r =>
        match transformer E r.2 32643 with
        | Raise e => Raise e
        | Ok t =>
            Ok {| features :=
                    [:: {| geometry := t (buffer (layer_union r.1) d);
                           attrs := [::] |}];
                  crs := Some 32643%Z |}
        end
    end.
Proof.
rewrite /make_buffer; case Eu: (ensure_utm roads) => [[roads_m epsg]|e] //=.
have [_ Ec _] := ensure_utm_ok Eu.
by rewrite /to_crs /= Ec /=; case: (transformer E epsg 32643).
Qed.

(** X4: the conversion of the centroid to a zone stands before the [try]:
    when [int] raises on it (a NaN or an infinite coordinate), the exception
    leaves [ensure_utm], and [make_buffer] with it, whatever the fallback
    could have done. *)
Theorem ensure_utm_bad_centroid gdf e :
  int_of_float (((centroid (layer_union gdf)).1 + 180) / 6)%float = Raise e ->
  ensure_utm gdf = Raise e /\ forall d, make_buffer gdf d = Raise e.
Proof.
move=> Ei.
have Eu: ensure_utm gdf = Raise e.
  by rewrite /ensure_utm /computed_epsg /utm_epsg /utm_zone Ei.
by split=> // d; rewrite make_buffer_outcome Eu.
Qed.

(** X5: what [ensure_utm] returns.  The source layer had a CRS; the returned
    layer carries the returned code as its CRS and has the rows and the
    attributes of the source; the code is the computed one, or it is 3857
    and the reprojection into the computed one had failed. *)
Theorem ensure_utm_result gdf gdf_m code :
  ensure_utm gdf = Ok (gdf_m, code) ->
  [/\ crs gdf_m = Some code,
      exists src, crs gdf = Some src,
      size (features gdf_m) = size (features gdf),
      [seq attrs f | f <- features gdf_m] = [seq attrs f | f <- features gdf] &
      computed_epsg gdf = Ok code \/
      code = 3857%Z /\
      exists epsg e, computed_epsg gdf = Ok epsg /\ to_crs gdf epsg = Raise e].
Proof.
rewrite /ensure_utm; case Ec: (computed_epsg gdf) => [epsg|e] //=.
case Et: (to_crs gdf epsg) => [g|e] /=.
  case=> <- <-; have [src [t [Es _ _]]] := to_crs_ok Et.
  rewrite (to_crs_crs Et) (to_crs_size Et) (to_crs_attrs Et).
  by split=> //; [exists src | left].
case Ef: (to_crs gdf 3857) => [g|e'] //= [<- <-].
have [src [t [Es _ _]]] := to_crs_ok Ef.
rewrite (to_crs_crs Ef) (to_crs_size Ef) (to_crs_attrs Ef).
by split=> //; [exists src | right; split=> //; exists epsg, e].
Qed.

(** Whether [make_buffer] fails, and with which error, does not depend on
    the distance. *)
Lemma make_buffer_fails_alike roads (d1 d2 : Distance E) e :
  make_buffer roads d1 = Raise e -> make_buffer roads d2 = Raise e.
Proof.
rewrite !make_buffer_outcome; case: (ensure_utm roads) => [r|e'] //.
by case: (transformer E r.2 32643).
Qed.

End ProjectorEdges.

Lemma overlay_monotone_witness :
  (count_intersecting_parcels Grid.parcels Grid.road_buffer).1
  <= (count_intersecting_parcels Grid.parcels Grid.wide_buffer).1.
Proof.
have covers p : Grid.pts (layer_union Grid.road_buffer) p ->
                Grid.pts (layer_union Grid.wide_buffer) p.
  by move: p; apply/allP; vm_compute.
by have [_] := overlay_monotone grid_laws Grid.parcels covers.
Defined.

Lemma ensure_utm_bad_centroid_witness :
  ensure_utm Grid.no_parcels = Raise ValueError.
Proof.
have Ei: int_of_float (((centroid (layer_union Grid.no_parcels)).1 + 180) / 6)%float
         = Raise ValueError by vm_compute.
by have [] := @ensure_utm_bad_centroid Grid.engine Grid.no_parcels _ Ei.
Defined.

Lemma ensure_utm_result_witness :
  ensure_utm Grid.bengaluru_degrees
  = Ok (Grid.layer (features Grid.bengaluru_degrees) (Some 32643%Z), 32643%Z) /\
  (computed_epsg Grid.bengaluru_degrees = Ok 32643%Z \/
   32643%Z = 3857%Z /\
   exists epsg e, computed_epsg Grid.bengaluru_degrees = Ok epsg /\
                  to_crs Grid.bengaluru_degrees epsg = Raise e).
Proof.
have Eu: ensure_utm Grid.bengaluru_degrees
         = Ok (Grid.layer (features Grid.bengaluru_degrees) (Some 32643%Z), 32643%Z).
  by vm_compute.
by split=> //; have [] := ensure_utm_result Eu.
Defined.

(** ** More on the loader and the road fetcher *)

(** A string that ends with a suffix ends with the last character of the
    suffix. *)
Lemma endswith_last s suffix c :
  endswith s suffix ->
  String.get (String.length suffix).-1 suffix = Some c ->
  String.get (String.length s).-1 s = Some c.
Proof.
rewrite /endswith => /andP [le_ks /String.eqb_spec Es] Hc.
have kpos: 0 < String.length suffix.
  by case: suffix Hc {Es le_ks}.
have lt_pk: ((String.length suffix).-1 < String.length suffix)%coq_nat.
  by apply/ltP; rewrite prednK.
have := @String.substring_correct1 s (String.length s - String.length suffix)
          _ _ lt_pk.
rewrite Es Hc => ->; congr (String.get _ s).
move/leP: le_ks; move/ltP: kpos; rewrite -minusE.
by case: (String.length suffix) => [|k]; case: (String.length s) => [|n] /=; lia.
Qed.

Section LoaderEdges.

Variable E : GeoEngine.
Implicit Types (up : UploadedFile) (gdf : Layer E).


(** X7: an upload whose name ends in [.shp], in any case, is rejected as an
    unsupported type without a read, although both upload widgets list
    [shp] among their types. *)
Theorem loader_rejects_bare_shp (io : FileIO E) up :
  endswith (lower (name up)) ".shp" ->
  read_vector_upload io (Some up) = Rejected UnsupportedFormat.
Proof.
move=> Eshp; rewrite /read_vector_upload /parse_upload.
have last_p := endswith_last Eshp (erefl (Some "p"%char)).
have not_n suffix : String.get (String.length suffix).-1 suffix = Some "n"%char ->
    endswith (lower (name up)) suffix = false.
  move=> Hn; apply/negP => Es.
  by have := endswith_last Es Hn; rewrite last_p.
have ->: endswith (lower (name up)) ".zip" = false.
  move: Eshp; rewrite /endswith => /andP [-> /String.eqb_spec ->].
  by [].
by rewrite !not_n.
Qed.

Variable osm_edges : string -> string -> result (Layer E).

(** X8: a road layer that [fetch_roads_from_place] returns is in EPSG:32643
    and has the rows and the attributes of the edges that the lookup gave,
    which declared a CRS. *)
Theorem fetched_roads_in_working_crs place_name network_type gdf :
  fetch_roads_from_place osm_edges place_name network_type = Fetched gdf ->
  exists raw,
    [/\ osm_edges place_name network_type = Ok raw,
        crs raw <> None,
        crs gdf = Some 32643%Z,
        size (features gdf) = size (features raw) &
        [seq attrs f | f <- features gdf] = [seq attrs f | f <- features raw]].
Proof.
rewrite /fetch_roads_from_place.
case Eo: (osm_edges place_name network_type) => [raw|e] //=.
case Et: (to_crs raw 32643) => [g|e] // [<-].
exists raw; rewrite (to_crs_crs Et) (to_crs_size Et) (to_crs_attrs Et).
by have [src [t [-> _ _]]] := to_crs_ok Et.
Qed.

End LoaderEdges.


Lemma loader_rejects_bare_shp_witness :
  read_vector_upload (Grid.io Grid.extracted Grid.bengaluru_degrees)
    (Some Grid.shp_upload)
  = Rejected UnsupportedFormat.
Proof.
exact: (@loader_rejects_bare_shp Grid.engine _ Grid.shp_upload (erefl _)).
Defined.

Lemma fetched_roads_in_working_crs_witness :
  exists raw,
    [/\ Grid.osm "Bengaluru, India" "all_private" = Ok raw,
        crs raw <> None,
        crs (Grid.layer (features Grid.bengaluru_degrees) (Some 32643%Z))
        = Some 32643%Z,
        size (features (Grid.layer (features Grid.bengaluru_degrees) (Some 32643%Z)))
        = size (features raw) &
        [seq attrs f
        | f <- features (Grid.layer (features Grid.bengaluru_degrees) (Some 32643%Z))]
        = [seq attrs f | f <- features raw]].
Proof.
have Ef: fetch_roads_from_place Grid.osm "Bengaluru, India" "all_private"
         = Fetched (Grid.layer (features Grid.bengaluru_degrees) (Some 32643%Z)).
  by vm_compute.
exact: (fetched_roads_in_working_crs Ef).
Defined.

(** ** The run over the distances *)

(** X9: with the selected distance and the multiselect's distinct values
    taken from [buffer_choices], the distances of a run contain the selected
    one, have no duplicate, keep the multiselect's values in their order,
    and are all from the curated list, hence positive. *)
Theorem final_distances_curated selected_buffer multi_select_buffers :
  selected_buffer \in buffer_choices ->
  {subset multi_select_buffers <= buffer_choices} ->
  uniq multi_select_buffers ->
  let dists := final_distances selected_buffer multi_select_buffers in
  [/\ selected_buffer \in dists, uniq dists,
      {subset dists <= buffer_choices},
      all (fun d => (0 <? d)%Z) dists &
      subseq multi_select_buffers dists].
Proof.
move=> sel sub un; rewrite /final_distances.
have pos: {in buffer_choices, forall d, (0 <? d)%Z} by apply/allP.
case: ifP => [isin|/negbT notin]; split=> //.
- by apply/allP => d /sub /pos.
- exact: mem_head.
- by rewrite /= notin.
- by move=> d; rewrite inE => /orP [/eqP ->|/sub].
- by rewrite /= (pos _ sel); apply/allP => d /sub /pos.
- exact: subseq_cons.
Qed.

Lemma final_distances_curated_witness :
  final_distances 100 [:: 10; 50]%Z = [:: 100; 10; 50]%Z /\
  uniq (final_distances 100 [:: 10; 50]%Z).
Proof.
have sub: {subset [:: 10; 50]%Z <= buffer_choices}.
  by move=> d; rewrite !inE => /orP [/eqP ->|/eqP ->].
have [_ un _ _ _] :=
  @final_distances_curated 100%Z [:: 10; 50]%Z (erefl _) sub (erefl _).
by split.
Defined.

Section Run.

Variable E : GeoEngine.
Implicit Types (roads parcels : Layer E) (dists : seq (Distance E)).
Implicit Types (rs : seq (AnalysisResult E)).

(** The entries of a finished loop, one per distance, each made of the
    buffer for its distance and of the overlay against it. *)
Lemma run_distances_entries roads parcels dists rs :
  run_distances roads parcels dists = Ok rs ->
  [seq res_distance_m r | r <- rs] = dists /\
  List.Forall
    (fun r => make_buffer roads (res_distance_m r) = Ok (res_buffer r) /\
              (res_count r, res_intersections r)
              = count_intersecting_parcels parcels (res_buffer r)) rs.
Proof.
elim: dists rs => [|d ds IH] rs /=; first by case=> <-.
case Eb: (make_buffer roads d) => [buf|e] //=.
case: (to_crs buf 4326) => [buf_disp|e] //=.
case: (to_crs _ 4326) => [inter_disp|e] //=.
case Er: (run_distances roads parcels ds) => [rs'|e] //= [<-] /=.
have [-> Hall] := IH _ Er; split=> //.
by constructor=> //=; split=> //; case: (count_intersecting_parcels _ _).
Qed.

(** A finished run went through both reprojections to EPSG:32643 and
    through the loop on the reprojected layers. *)
Lemma run_processing_finished roads_gdf parcels_gdf dists rs :
  run_processing roads_gdf parcels_gdf dists = Finished rs ->
  exists roads parcels roads' parcels',
    [/\ roads_gdf = Some roads, parcels_gdf = Some parcels,
        to_crs roads 32643 = Ok roads', to_crs parcels 32643 = Ok parcels' &
        run_distances roads' parcels' dists = Ok rs].
Proof.
rewrite /run_processing.
case: roads_gdf => [roads|] //; case: parcels_gdf => [parcels|] //.
case Er: (to_crs roads 32643) => [roads'|e] //=.
case Ep: (to_crs parcels 32643) => [parcels'|e] //=.
case: (to_crs parcels' 4326) => [pd|e] //=.
case: (to_crs roads' 4326) => [rd|e] //=.
case El: (run_distances roads' parcels' dists) => [rs'|e] // [<-].
by exists roads, parcels, roads', parcels'.
Qed.

(** X10: a finished run has one entry per distance, in the order of the
    distances.  Every entry holds the buffer of the reprojected roads for
    its distance, a single row in EPSG:32643, and the overlay of the
    reprojected parcels against it: a count equal to the number of rows of
    its intersection layer, which is a subsequence of the parcel rows, in
    EPSG:32643 like the buffer. *)
Theorem run_processing_entries roads_gdf parcels_gdf dists rs :
  run_processing roads_gdf parcels_gdf dists = Finished rs ->
  exists roads parcels roads' parcels',
    [/\ roads_gdf = Some roads /\ to_crs roads 32643 = Ok roads',
        parcels_gdf = Some parcels /\ to_crs parcels 32643 = Ok parcels',
        [seq res_distance_m r | r <- rs] = dists &
        List.Forall
          (fun r =>
             [/\ make_buffer roads' (res_distance_m r) = Ok (res_buffer r),
                 (res_count r, res_intersections r)
                 = count_intersecting_parcels parcels' (res_buffer r),
                 res_count r = size (features (res_intersections r)) /\
                 subseq (features (res_intersections r)) (features parcels'),
                 crs (res_buffer r) = Some 32643%Z /\
                 size (features (res_buffer r)) = 1 &
                 crs (res_intersections r) = Some 32643%Z]) rs].
Proof.
move=> /run_processing_finished
  [roads [parcels [roads' [parcels' [-> -> Er Ep /run_distances_entries [Ed Hall]]]]]].
exists roads, parcels, roads', parcels'; split=> //.
apply: List.Forall_impl Hall => r [Eb Ec]; split=> //.
- move: Ec; rewrite count_intersecting_parcelsE => -[-> ->] /=.
  by rewrite size_filter; split=> //; apply: filter_subseq.
- move: Eb; rewrite make_buffer_outcome.
  case: (ensure_utm roads') => [u|e] //.
  by case: (transformer E u.2 32643) => [t|e] // [<-].
- move: Ec; rewrite count_intersecting_parcelsE => -[_ ->] /=.
  exact: to_crs_crs Ep.
Qed.

(** The loop fails at its first distance, with an error that no distance
    changes, or it goes through every list of distances. *)
Lemma run_distances_cases roads parcels :
  (exists e, forall d dists, run_distances roads parcels (d :: dists) = Raise e) \/
  (forall dists, exists rs, run_distances roads parcels dists = Ok rs).
Proof.
case Eu: (ensure_utm roads) => [u|e]; last first.
  by left; exists e => d ds /=; rewrite make_buffer_outcome Eu.
case Et: (transformer E u.2 32643) => [t|e]; last first.
  by left; exists e => d ds /=; rewrite make_buffer_outcome Eu Et.
case E4: (transformer E 32643 4326) => [t4|e]; last first.
  by left; exists e => d ds /=; rewrite make_buffer_outcome Eu Et /= /to_crs /= E4.
case Ec: (crs parcels) => [src|]; last first.
  left; exists ValueError => d ds /=.
  by rewrite make_buffer_outcome Eu Et /= /to_crs /= E4 /= Ec.
case Ep: (transformer E src 4326) => [tp|e]; last first.
  left; exists e => d ds /=.
  by rewrite make_buffer_outcome Eu Et /= /to_crs /= E4 /= Ec /= Ep.
right; elim=> [|d ds [rs IH]] /=; first by exists [::].
rewrite make_buffer_outcome Eu Et /= /to_crs /= E4 /= Ec /= Ep /= IH /=.
by eexists.
Qed.

(** X11: the distances never decide how a run ends.  A run stops for a
    missing layer whatever the distances; or it ends on one and the same
    exception for every list with a distance in it; or it finishes for every
    list of distances.  The exceptions of a run are those of the projector
    and of the reprojections (the engine's union, buffer and test do not
    raise), so no run fails at a later distance after an earlier one went
    through. *)
Theorem run_processing_all_or_nothing roads_gdf parcels_gdf :
  [\/ exists m, forall dists,
        run_processing roads_gdf parcels_gdf dists = Stopped m,
      exists e, forall d dists,
        run_processing roads_gdf parcels_gdf (d :: dists) = Crashed e |
      forall dists, exists rs,
        run_processing roads_gdf parcels_gdf dists = Finished rs].
Proof.
case: roads_gdf => [roads|]; last by constructor 1; exists RoadsRequired.
case: parcels_gdf => [parcels|]; last by constructor 1; exists ParcelsRequired.
rewrite /run_processing.
case Er: (to_crs roads 32643) => [roads'|e];
  last by constructor 2; exists e.
case Ep: (to_crs parcels 32643) => [parcels'|e];
  last by constructor 2; exists e.
case Epd: (to_crs parcels' 4326) => [pd|e];
  last by constructor 2; exists e => d ds; rewrite /bind Epd.
case Erd: (to_crs roads' 4326) => [rd|e];
  last by constructor 2; exists e => d ds; rewrite /bind Epd Erd.
case: (run_distances_cases roads' parcels') => [[e He]|Hok].
  by constructor 2; exists e => d ds; rewrite /bind Epd Erd -/(bind _ _) He.
constructor 3 => ds; have [rs Hrs] := Hok ds.
by exists rs; rewrite /bind Epd Erd -/(bind _ _) Hrs.
Qed.

(** X12: for every entry of a finished run the buffer download is built,
    since the buffer layer always has its row, and the intersection download
    is built exactly when the count is not 0. *)
Theorem downloads_of_finished_run roads_gdf parcels_gdf dists rs :
  run_processing roads_gdf parcels_gdf dists = Finished rs ->
  List.Forall (fun r => downloads r = (true, 0 < res_count r)) rs.
Proof.
move=> /run_processing_finished
  [roads [parcels [roads' [parcels' [_ _ _ _ /run_distances_entries [_ Hall]]]]]].
apply: List.Forall_impl Hall => r [Eb Ec]; rewrite /downloads /layer_empty.
congr (_, _).
- move: Eb; rewrite make_buffer_outcome.
  case: (ensure_utm roads') => [u|e] //.
  by case: (transformer E u.2 32643) => [t|e] // [<-].
- move: Ec; rewrite count_intersecting_parcelsE => -[-> ->] /=.
  by rewrite -size_filter; case: [seq _ <- _ | _].
Qed.

End Run.

Lemma sample_run_finished : Grid.sample_run = Finished Grid.sample_results.
Proof. by vm_compute. Qed.

Lemma run_processing_entries_witness :
  [seq res_distance_m r | r <- Grid.sample_results] = [:: 1; 2].
Proof.
by have [roads [parcels [roads' [parcels' [_ _ -> _]]]]] :=
  run_processing_entries sample_run_finished.
Defined.

Lemma downloads_of_finished_run_witness :
  List.Forall (fun r : AnalysisResult Grid.engine =>
                 downloads r = (true, 0 < res_count r)) Grid.sample_results.
Proof. exact: (downloads_of_finished_run sample_run_finished). Defined.

(** The sample run: the same two of the three parcels at both distances. *)
Example sample_run_counts :
  [seq res_count r | r <- Grid.sample_results] = [:: 2; 2].
Proof. by vm_compute. Qed.
